(** * PaginationUI: a shallow embedding of src/components/PaginationUI.jsx

    The component has three pieces of logic:
    - [reducer], a pure transition function over the load state
      [{ data, isLoading, error }];
    - [useFetch]/[fetchData], which turns the outcome of one [fetch] call
      into a value [{ error, data }] through a try/catch;
    - the pagination derivations ([totalPages], [currentPageItems]) and
      the navigation handlers of [PaginationUI].

    JavaScript numbers used here are small integers and are modelled as [Z];
    [Math.ceil (a / b)] is modelled with the ceiling of the rational
    quotient. Items are opaque and kept abstract. *)

From Stdlib Require Import ZArith List String Bool Lia.
From Stdlib Require Import QArith Qround.
Import ListNotations.
Open Scope Z_scope.
Set Warnings "-register-all".


(** ** The load state and its reducer (lines 4-21) *)

Module Reducer.
Section Reducer.
Variable Item : Type.

(** [{ data, isLoading, error }]; [error] is [null] ([None]) or a string. *)
Record LoadState := mkState {
  data : list Item;
  isLoading : bool;
  error : option string
}.

(** An action object [{ type, data, error }]. *)
Record Action := mkAction {
  atype : string;
  adata : list Item;
  aerror : option string
}.

Definition initialState : LoadState :=
  {| data := []; isLoading := false; error := None |}.

(** [switch (action.type)] with a [default] returning [state]. *)
Definition reducer (state : LoadState) (action : Action) : LoadState :=
  if String.eqb (atype action) "LOADING" then
    {| data := data state; isLoading := true; error := None |}
  else if String.eqb (atype action) "OK" then
    {| data := adata action; isLoading := false; error := None |}
  else if String.eqb (atype action) "ERROR" then
    {| data := data state; isLoading := false; error := aerror action |}
  else state.

(** The state after dispatching a sequence of actions from [s]. *)
Definition run_from (s : LoadState) (acts : list Action) : LoadState :=
  fold_left reducer acts s.

Definition run (acts : list Action) : LoadState :=
  run_from initialState acts.

(** JavaScript truthiness of [state.error]: [null] and [""] are falsy. *)
Definition truthy (e : option string) : bool :=
  match e with
  | None => false
  | Some m => negb (String.eqb m "")
  end.

(** The three guarded regions of the render (lines 83-86). *)
Inductive Region :=
| LoadingIndicator
| ErrorText (msg : string)
| DataView.

Definition render (state : LoadState) : list Region :=
  (if isLoading state then [LoadingIndicator] else [])
  ++ (match error state with
      | Some m => if truthy (error state) then [ErrorText m] else []
      | None => []
      end)
  ++ (if negb (isLoading state) && negb (truthy (error state))
      then [DataView] else []).

(** The payload of the most recent [OK] action ([[]] if there was none). *)
Definition last_ok_payload (acts : list Action) : list Item :=
  fold_left (fun acc a => if String.eqb (atype a) "OK" then adata a else acc)
    acts [].

End Reducer.
Arguments mkState {Item}.
Arguments mkAction {Item}.
Arguments data {Item}.
Arguments isLoading {Item}.
Arguments error {Item}.
Arguments atype {Item}.
Arguments adata {Item}.
Arguments aerror {Item}.
Arguments initialState {Item}.
Arguments reducer {Item}.
Arguments run_from {Item}.
Arguments run {Item}.
Arguments render {Item}.
Arguments last_ok_payload {Item}.
End Reducer.

(** ** Pagination (lines 44-47, 69-77, 96-128) *)

Module Pagination.
Section Pagination.
Variable Item : Type.

Definition itemsPerPage : Z := 10.

(** [Math.ceil(state.data.length / itemsPerPage)] *)
Definition totalPages (data : list Item) : Z :=
  Qceiling (inject_Z (Z.of_nat (List.length data)) / inject_Z itemsPerPage).

(** [Array.prototype.slice(start, end)]: negative indices count from the
    end, both indices are clamped to [[0, length]], and an empty range
    gives the empty array. *)
Definition relative_index (len k : Z) : Z :=
  if k <? 0 then Z.max (len + k) 0 else Z.min k len.

Definition js_slice (l : list Item) (start end_ : Z) : list Item :=
  let len := Z.of_nat (List.length l) in
  let from := relative_index len start in
  let to := relative_index len end_ in
  firstn (Z.to_nat (to - from)) (skipn (Z.to_nat from) l).

Definition currentPageItems (data : list Item) (pagination : Z) : list Item :=
  js_slice data ((pagination - 1) * itemsPerPage) (pagination * itemsPerPage).

(** [pagination > 1 && setPagination(pagination - 1)]: the new value of
    [pagination]. *)
Definition handlePrevious (pagination : Z) : Z :=
  if pagination >? 1 then pagination - 1 else pagination.

(** [pagination < totalPages && setPagination(pagination + 1)] *)
Definition handleNext (data : list Item) (pagination : Z) : Z :=
  if pagination <? totalPages data then pagination + 1 else pagination.

(** [setPagination(num)] *)
Definition handlePageClick (num : Z) (pagination : Z) : Z := num.

(** [disabled={pagination === 1}] *)
Definition previousDisabled (pagination : Z) : bool := pagination =? 1.

(** [disabled={pagination === totalPages}] *)
Definition nextDisabled (data : list Item) (pagination : Z) : bool :=
  pagination =? totalPages data.

(** [Array.from({ length: totalPages }, (_, index) => ...)]: the labels
    [index + 1] of the numbered controls. *)
Definition pageControls (data : list Item) : list Z :=
  map (fun index => Z.of_nat index + 1) (seq 0 (Z.to_nat (totalPages data))).

End Pagination.
Arguments totalPages {Item}.
Arguments js_slice {Item}.
Arguments currentPageItems {Item}.
Arguments handleNext {Item}.
Arguments nextDisabled {Item}.
Arguments pageControls {Item}.
End Pagination.

(** ** Navigation and loading together (lines 43-77)

    [PaginationUI] owns the reducer state and [pagination] (initially 1).
    [nav_reach s p loaded] holds of the pairs reachable from
    [(initialState, 1)] by the navigation handlers, by clicks on a rendered
    numbered control (a page in [[1, totalPages]]) and by at most one
    [OK] dispatch, [loaded] recording whether that dispatch happened. *)

Module Navigation.
Import Reducer Pagination.
Section Navigation.
Variable Item : Type.

Inductive nav_reach : LoadState Item -> Z -> bool -> Prop :=
| reach_init : nav_reach initialState 1 false
| reach_previous s p b :
    nav_reach s p b -> nav_reach s (handlePrevious p) b
| reach_next s p b :
    nav_reach s p b -> nav_reach s (handleNext (data s) p) b
| reach_click s p b num :
    nav_reach s p b ->
    1 <= num <= totalPages (data s) ->
    nav_reach s (handlePageClick num p) b
| reach_ok s p items :
    nav_reach s p false ->
    nav_reach (reducer s (mkAction "OK" items None)) p true.

End Navigation.
Arguments nav_reach {Item}.
End Navigation.

(** ** The data loader [useFetch] (lines 23-40) *)

Module Loader.

(** A parsed JSON value, the result of [response.json()]. *)
Inductive json :=
| JNull
| JBool (b : bool)
| JNum (n : Z)
| JStr (s : string)
| JArr (xs : list json)
| JObj (fields : list (string * json)).

(** Computations that may throw an [Error] carrying its [message]. *)
Inductive Exc (A : Type) :=
| Ret (a : A)
| Throw (message : string).
Arguments Ret {A}.
Arguments Throw {A}.

Definition bind {A B} (m : Exc A) (k : A -> Exc B) : Exc B :=
  match m with
  | Ret a => k a
  | Throw msg => Throw msg
  end.

(** [try { body } catch (err) { handler(err.message) }] *)
Definition try_catch {A} (body : Exc A) (handler : string -> Exc A) : Exc A :=
  match body with
  | Ret a => Ret a
  | Throw msg => handler msg
  end.

Notation "x <- m ;; k" := (bind m (fun x => k)) (at level 61, m at next level, right associativity).

(** What [await fetch(url, headers)] yields: a response whose [ok] flag is
    the status check and whose [json()] either parses the body or throws
    (malformed body). A rejected [fetch] (network failure) is a [Throw]. *)
Record Response := mkResponse {
  ok : bool;
  json_body : Exc json
}.

(** The value [{ error, data }] returned by [fetchData]. *)
Record FetchResult := mkResult {
  res_error : option string;
  res_data : json
}.

Definition server_message : string :=
  "Could not fetch data from server. Please try again later.".

(** [fetchData], given the outcome of the [fetch] call. *)
Definition fetchData (fetch_outcome : Exc Response) : Exc FetchResult :=
  try_catch
    (response <- fetch_outcome ;;
     (if negb (ok response) then Throw server_message
      else
        resData <- json_body response ;;
        Ret {| res_error := None; res_data := resData |}))
    (fun message => Ret {| res_error := Some message; res_data := JArr [] |}).

End Loader.

(** ** The load sequence [handleFetch] (lines 54-67) and the active
    marking of the numbered controls (lines 107-118) *)

Module Effect.
Import Reducer Pagination Loader.

(** [if (error) dispatch({ type: "ERROR", error }) else
    dispatch({ type: "OK", data })]. The [ERROR] action has no [data]
    field, which the reducer never reads for it; [OK] carries the parsed
    body, which the rest of the component uses as an array. A body that
    is not a JSON array is outside this model ([None]). *)
Definition result_action (res : FetchResult) : option (Action json) :=
  if truthy (res_error res) then
    Some (mkAction "ERROR" [] (res_error res))
  else
    match res_data res with
    | JArr xs => Some (mkAction "OK" xs None)
    | _ => None
    end.

(** [handleFetch] from state [s]: [dispatch({ type: "LOADING" })], await
    [fetchData()], then dispatch the result. Returns the state once the
    load has settled. *)
Definition handleFetch (s : LoadState json) (fetch_outcome : Exc Response)
    : option (LoadState json) :=
  let loading := reducer s (mkAction "LOADING" [] None) in
  match fetchData fetch_outcome with
  | Ret res =>
      match result_action res with
      | Some a => Some (reducer loading a)
      | None => None
      end
  | Throw _ => None
  end.

(** [pagination === index + 1 && styles.active] for each numbered control. *)
Definition activeFlags {A} (d : list A) (pagination : Z) : list bool :=
  map (fun label => label =? pagination) (pageControls d).

End Effect.

(** * Properties *)

Import Reducer Pagination Navigation Loader Effect.

(** ** Helper lemmas *)

(** Peel equations between [Exc] values and substitute their contents. *)
Ltac inj_exc :=
  repeat match goal with
         | H : Ret _ = Ret _ |- _ => injection H; clear H; intro; subst; cbn in *
         | H : Throw _ = Throw _ |- _ => injection H; clear H; intro; subst; cbn in *
         end.

(** [Math.ceil(n / 10)] on a list of length [n] is [-((-n) / 10)]. *)
Lemma totalPages_eq {A} (d : list A) :
  totalPages d = - ((- Z.of_nat (List.length d)) / 10).
Proof.
  unfold totalPages, Qceiling, Qfloor, itemsPerPage, Qdiv, inject_Z.
  cbn. f_equal. f_equal. lia.
Qed.

(** The ceiling bounds: [10 * (totalPages - 1) < n <= 10 * totalPages]. *)
Lemma totalPages_bounds {A} (d : list A) :
  10 * (totalPages d - 1) < Z.of_nat (List.length d) <= 10 * totalPages d.
Proof.
  rewrite totalPages_eq.
  set (n := Z.of_nat (List.length d)).
  pose proof (Z.div_mod (- n) 10 ltac:(lia)) as Hdm.
  pose proof (Z.mod_pos_bound (- n) 10 ltac:(lia)) as Hb.
  lia.
Qed.

Lemma totalPages_nonneg {A} (d : list A) : 0 <= totalPages d.
Proof.
  pose proof (totalPages_bounds d). lia.
Qed.

Example totalPages_25 : totalPages (repeat 0%nat 25) = 3.
Proof. reflexivity. Qed.

Example currentPage_3_of_25 :
  currentPageItems (seq 1 25) 3 = [21; 22; 23; 24; 25]%nat.
Proof. reflexivity. Qed.

(** On a valid page the slice is [firstn (min e n - s) (skipn s data)]
    with [s = (p-1)*10 < n] and [e = p*10]. *)
Lemma currentPageItems_valid {A} (d : list A) (p : Z) :
  1 <= p <= totalPages d ->
  currentPageItems d p =
  firstn (Z.to_nat (Z.min (p * 10) (Z.of_nat (List.length d)) - (p - 1) * 10))
    (skipn (Z.to_nat ((p - 1) * 10)) d).
Proof.
  intros Hp. pose proof (totalPages_bounds d) as Hb.
  unfold currentPageItems, js_slice, relative_index, itemsPerPage.
  destruct ((p - 1) * 10 <? 0) eqn:E1; [lia|].
  destruct (p * 10 <? 0) eqn:E2; [lia|].
  rewrite (Z.min_l ((p - 1) * 10)) by lia.
  reflexivity.
Qed.

Lemma length_currentPageItems_valid {A} (d : list A) (p : Z) :
  1 <= p <= totalPages d ->
  Z.of_nat (List.length (currentPageItems d p)) =
  Z.min (p * 10) (Z.of_nat (List.length d)) - (p - 1) * 10.
Proof.
  intros Hp. pose proof (totalPages_bounds d) as Hb.
  rewrite currentPageItems_valid by exact Hp.
  rewrite length_firstn, length_skipn. lia.
Qed.

(** The reducer never leaves [isLoading] set together with an error. *)
Definition loading_clear {A} (s : LoadState A) : Prop :=
  isLoading s = true -> error s = None.

Lemma reducer_loading_clear {A} (s : LoadState A) (a : Action A) :
  loading_clear s -> loading_clear (reducer s a).
Proof.
  unfold loading_clear, reducer. intros H.
  destruct (String.eqb (atype a) "LOADING"); [reflexivity|].
  destruct (String.eqb (atype a) "OK"); [discriminate|].
  destruct (String.eqb (atype a) "ERROR"); [discriminate|].
  exact H.
Qed.

Lemma run_from_loading_clear {A} (acts : list (Action A)) (s : LoadState A) :
  loading_clear s -> loading_clear (run_from s acts).
Proof.
  revert s. induction acts as [|a acts IH]; intros s H; cbn; [exact H|].
  apply IH, reducer_loading_clear, H.
Qed.

(** [data] after a run is the payload of the most recent [OK]. *)
Lemma run_from_data {A} (acts : list (Action A)) (s : LoadState A) :
  data (run_from s acts) =
  fold_left (fun acc a => if String.eqb (atype a) "OK" then adata a else acc)
    acts (data s).
Proof.
  revert s. induction acts as [|a acts IH]; intros s; cbn; [reflexivity|].
  unfold run_from in IH. rewrite IH. f_equal.
  unfold reducer.
  destruct (String.eqb (atype a) "OK") eqn:Eok.
  - apply String.eqb_eq in Eok. rewrite Eok. reflexivity.
  - destruct (String.eqb (atype a) "LOADING"); [reflexivity|].
    destruct (String.eqb (atype a) "ERROR"); reflexivity.
Qed.

(** ** Claims *)

(** C3: for a valid page [p] in [[1, totalPages]] the visible slice holds
    exactly the items at positions [[(p-1)*10, p*10)], has at most 10
    items, and the last page has [n - (totalPages-1)*10] items. *)
Theorem currentPageItems_window {A} (d : list A) (p : Z) :
  1 <= p <= totalPages d ->
  (forall i : nat,
     nth_error (currentPageItems d p) i =
     if (i <? 10)%nat then nth_error d (Z.to_nat ((p - 1) * 10) + i) else None)
  /\ (List.length (currentPageItems d p) <= 10)%nat
  /\ (p = totalPages d ->
      Z.of_nat (List.length (currentPageItems d p)) =
      Z.of_nat (List.length d) - (totalPages d - 1) * 10).
Proof.
  intros Hp. pose proof (totalPages_bounds d) as Hb.
  pose proof (length_currentPageItems_valid d p Hp) as Hl.
  split; [|split].
  - intros i. rewrite currentPageItems_valid by exact Hp.
    rewrite nth_error_firstn, nth_error_skipn.
    destruct (Nat.ltb_spec i
      (Z.to_nat (Z.min (p * 10) (Z.of_nat (List.length d)) - (p - 1) * 10)))
      as [Hi | Hi];
    destruct (Nat.ltb_spec i 10) as [Hi' | Hi']; try reflexivity; try lia.
    symmetry. apply nth_error_None. lia.
  - lia.
  - intros ->. lia.
Qed.

(** C4: [totalPages] is [ceil(n/10)], i.e. the integer [t] with
    [10*(t-1) < n <= 10*t], that is [(n + 9) / 10]; one numbered control is rendered
    per page, and for [n = 0] there are no pages and no controls. *)
Theorem totalPages_ceil {A} (d : list A) :
  let n := Z.of_nat (List.length d) in
  10 * (totalPages d - 1) < n <= 10 * totalPages d
  /\ totalPages d = (n + 9) / 10
  /\ pageControls d = map (fun index => Z.of_nat index + 1)
                          (seq 0 (Z.to_nat (totalPages d)))
  /\ Z.of_nat (List.length (pageControls d)) = totalPages d
  /\ (n = 0 -> totalPages d = 0 /\ pageControls d = []).
Proof.
  intros n. pose proof (totalPages_bounds d) as Hb.
  assert (Ht : totalPages d = (n + 9) / 10).
  { apply Z.div_unique with (r := n + 9 - 10 * totalPages d);
    [left|]; unfold n; lia. }
  split; [|split; [|split; [|split]]].
  - exact Hb.
  - exact Ht.
  - reflexivity.
  - unfold pageControls. rewrite length_map, length_seq.
    pose proof (totalPages_nonneg d). lia.
  - intros Hn. assert (H0 : totalPages d = 0) by (rewrite Ht, Hn; reflexivity).
    split; [exact H0|]. unfold pageControls. rewrite H0. reflexivity.
Qed.

(** C1: at the empty list ([totalPages = 0]) and page 1, no numbered
    control is rendered and Previous is disabled, but the Next button's
    [disabled={pagination === totalPages}] is [false]: Next stays enabled,
    while [handleNext]'s own guard [pagination < totalPages] treats the
    same state as having no next page. *)
Theorem nextDisabled_empty_list :
  totalPages (@nil nat) = 0
  /\ pageControls (@nil nat) = []
  /\ previousDisabled 1 = true
  /\ nextDisabled (@nil nat) 1 = false
  /\ handleNext (@nil nat) 1 = 1.
Proof. repeat split. Qed.

(** C5: [fetchData] always returns a value (never a thrown error): a
    non-success status gives the fixed server message, a rejected [fetch]
    or a failing [json()] gives that failure's own message, and otherwise
    the parsed body is the data. *)
Theorem fetchData_result (fetch_outcome : Exc Response) :
  exists res, fetchData fetch_outcome = Ret res
  /\ (forall msg, fetch_outcome = Throw msg -> res_error res = Some msg)
  /\ (forall r, fetch_outcome = Ret r -> ok r = false ->
        res_error res =
        Some "Could not fetch data from server. Please try again later."%string)
  /\ (forall r msg, fetch_outcome = Ret r -> ok r = true ->
        json_body r = Throw msg -> res_error res = Some msg)
  /\ (forall r v, fetch_outcome = Ret r -> ok r = true ->
        json_body r = Ret v -> res = {| res_error := None; res_data := v |}).
Proof.
  destruct fetch_outcome as [[okf body] | m];
    [destruct okf; [destruct body as [v | m] |] |]; cbn;
    eexists; (split; [reflexivity |]);
    repeat split; intros; try discriminate;
    inj_exc; try discriminate; reflexivity.
Qed.

(** C10: every error result of [fetchData] carries [[]] as its data. *)
Theorem fetchData_error_empty_data (fetch_outcome : Exc Response)
    (res : FetchResult) :
  fetchData fetch_outcome = Ret res -> res_error res <> None ->
  res_data res = JArr [].
Proof.
  intros Hf Herr.
  destruct fetch_outcome as [[[|] [v | m]] | m]; cbn in Hf;
    injection Hf as <-; cbn in *; try reflexivity.
  contradiction.
Qed.

(** C2 (counterexample): after [LOADING], [OK [7]] and [ERROR], the state
    has a non-null error and still holds the items [[7]]. *)
Lemma error_keeps_stale_items :
  let s := run [mkAction "LOADING" [] None; mkAction "OK" [7%nat] None;
                mkAction "ERROR" [] (Some "Failed to fetch"%string)] in
  error s = Some "Failed to fetch"%string /\ data s = [7%nat].
Proof. split; reflexivity. Qed.

(** C2 (amended): in every state reachable from [initialState], [data] is
    the payload of the most recent [OK] ([[]] if there was none): [ERROR]
    leaves it unchanged. On the component's own load sequence, [LOADING]
    then [ERROR] from [initialState], the items are empty. *)
Theorem run_data_last_ok {A} (acts : list (Action A)) :
  data (run acts) = last_ok_payload acts
  /\ (forall e, data (run [mkAction "LOADING" [] None; mkAction "ERROR" [] e]
                   : LoadState A) = []).
Proof.
  split.
  - unfold run, last_ok_payload. rewrite run_from_data. reflexivity.
  - intros e. reflexivity.
Qed.

(** C7: in every reachable state [isLoading] and a truthy [error] are not
    both set, and the render shows exactly one region. *)
Theorem render_exactly_one {A} (acts : list (Action A)) :
  isLoading (run acts) && truthy (error (run acts)) = false
  /\ List.length (render (run acts)) = 1%nat.
Proof.
  assert (H : loading_clear (run acts)).
  { apply run_from_loading_clear. unfold loading_clear. discriminate. }
  unfold loading_clear in H. unfold render.
  destruct (run acts) as [d [|] [m|]]; cbn in *.
  - specialize (H eq_refl). discriminate.
  - split; reflexivity.
  - destruct (String.eqb m ""); split; reflexivity.
  - split; reflexivity.
Qed.

(** C8: an action whose type is none of [LOADING], [OK], [ERROR] leaves
    the state unchanged. *)
Theorem reducer_unrecognized {A} (s : LoadState A) (a : Action A) :
  atype a <> "LOADING"%string -> atype a <> "OK"%string ->
  atype a <> "ERROR"%string -> reducer s a = s.
Proof.
  intros H1 H2 H3. unfold reducer.
  apply String.eqb_neq in H1, H2, H3. rewrite H1, H2, H3. reflexivity.
Qed.

(** C6: from page 1, the navigation handlers, clicks on rendered controls
    and one [OK] keep [1 <= pagination <= max 1 totalPages]. *)
Theorem nav_reach_bounds {A} (s : LoadState A) (p : Z) (b : bool) :
  nav_reach s p b -> 1 <= p <= Z.max 1 (totalPages (data s)).
Proof.
  intros H.
  enough (Hs : (b = false -> data s = []) /\
               1 <= p <= Z.max 1 (totalPages (data s))) by apply Hs.
  induction H as [| s p b H [Hd IH] | s p b H [Hd IH] | s p b num H [Hd IH] Hn
                  | s p items H [Hd IH]].
  - split; [reflexivity|]. cbn. lia.
  - split; [exact Hd|]. unfold handlePrevious.
    destruct (Z.gtb_spec p 1); lia.
  - split; [exact Hd|]. unfold handleNext.
    destruct (Z.ltb_spec p (totalPages (data s))); lia.
  - split; [exact Hd|]. unfold handlePageClick. lia.
  - split; [discriminate|]. cbn.
    rewrite (Hd eq_refl) in IH. cbn in IH.
    pose proof (totalPages_nonneg items). lia.
Qed.

(** C9: [handlePrevious] does nothing at [pagination <= 1] and
    [handleNext] does nothing at [pagination >= totalPages], whatever the
    buttons' [disabled] attributes; with no items, Next is not disabled at
    page 1 and its handler still leaves the page unchanged. *)
Theorem handlers_guarded {A} (d : list A) (p : Z) :
  (p <= 1 -> handlePrevious p = p)
  /\ (p >= totalPages d -> handleNext d p = p)
  /\ (nextDisabled (@nil A) 1 = false /\ handleNext (@nil A) 1 = 1).
Proof.
  split; [|split].
  - intros Hp. unfold handlePrevious. destruct (Z.gtb_spec p 1); lia.
  - intros Hp. unfold handleNext.
    destruct (Z.ltb_spec p (totalPages d)); lia.
  - split; reflexivity.
Qed.

(** ** Witnesses: the theorems with hypotheses applied at concrete inputs *)

Lemma currentPageItems_window_witness :
  1 <= 3 <= totalPages (seq 1 25)
  /\ Z.of_nat (List.length (currentPageItems (seq 1 25) 3)) =
     Z.of_nat (List.length (seq 1 25)) - (totalPages (seq 1 25) - 1) * 10.
Proof.
  assert (H : 1 <= 3 <= totalPages (seq 1 25)) by (vm_compute; split; discriminate).
  split; [exact H|].
  apply (proj2 (proj2 (currentPageItems_window (seq 1 25) 3 H))).
  reflexivity.
Defined.

Lemma totalPages_ceil_witness :
  totalPages (@nil nat) = 0 /\ pageControls (@nil nat) = [].
Proof.
  apply (proj2 (proj2 (proj2 (proj2 (totalPages_ceil (@nil nat)))))).
  reflexivity.
Defined.

Lemma nav_reach_bounds_witness :
  nav_reach (reducer initialState (mkAction "OK" (seq 1 25) None)) 2 true
  /\ 1 <= 2 <= Z.max 1
       (totalPages (data (reducer initialState (mkAction "OK" (seq 1 25) None)))).
Proof.
  assert (H : nav_reach (reducer initialState (mkAction "OK" (seq 1 25) None)) 2 true).
  { change 2 with
      (handleNext (data (reducer (@initialState nat) (mkAction "OK" (seq 1 25) None))) 1).
    apply reach_next, reach_ok, reach_init. }
  split; [exact H|]. exact (nav_reach_bounds _ _ _ H).
Defined.

Lemma reducer_unrecognized_witness :
  reducer (mkState [1%nat] false None) (mkAction "RESET" [] None)
  = mkState [1%nat] false None.
Proof.
  apply reducer_unrecognized; discriminate.
Defined.

Lemma handlers_guarded_witness :
  handlePrevious 1 = 1 /\ handleNext (@nil nat) 1 = 1.
Proof.
  split.
  - apply (proj1 (handlers_guarded (@nil nat) 1)). lia.
  - apply (proj1 (proj2 (handlers_guarded (@nil nat) 1))). vm_compute. discriminate.
Defined.

Lemma fetchData_error_empty_data_witness :
  res_data (mkResult (Some server_message) (JArr [])) = JArr [].
Proof.
  apply (fetchData_error_empty_data (Ret (mkResponse false (Ret JNull)))).
  - reflexivity.
  - discriminate.
Defined.

(** ** Further properties of the component *)

(** A failure thrown with a non-empty message, by [fetch] itself or by
    [response.json()], ends the load in [{ data (unchanged), isLoading:
    false, error: message }], which renders only that message. *)
Theorem handleFetch_thrown (s : LoadState json) (m : string) :
  m <> ""%string ->
  let st := mkState (data s) false (Some m) in
  handleFetch s (Throw m) = Some st
  /\ handleFetch s (Ret (mkResponse true (Throw m))) = Some st
  /\ render st = [ErrorText m].
Proof.
  intros Hm st. apply String.eqb_neq in Hm.
  unfold handleFetch, result_action, render, st; cbn.
  rewrite Hm. repeat split.
Qed.

(** A response with a non-success status ends the load with the fixed
    server message as the only thing rendered, whatever the body. *)
Theorem handleFetch_bad_status (s : LoadState json) (body : Exc json) :
  let st := mkState (data s) false (Some server_message) in
  handleFetch s (Ret (mkResponse false body)) = Some st
  /\ render st = [ErrorText server_message].
Proof.
  split; reflexivity.
Qed.

(** A successful load of a JSON array replaces the items, clears the
    error and the loading flag, renders the list, and page 1 shows the
    first 10 items. *)
Theorem handleFetch_success (s : LoadState json) (xs : list json) :
  let st := mkState xs false None in
  handleFetch s (Ret (mkResponse true (Ret (JArr xs)))) = Some st
  /\ render st = [DataView]
  /\ currentPageItems xs 1 = firstn 10 xs.
Proof.
  intros st. split; [reflexivity|]. split; [reflexivity|].
  unfold currentPageItems, js_slice, itemsPerPage.
  set (n := Z.of_nat (List.length xs)).
  assert (H0 : relative_index n ((1 - 1) * 10) = 0).
  { unfold relative_index. cbn. unfold n. lia. }
  assert (H10 : relative_index n (1 * 10) = Z.min 10 n).
  { unfold relative_index. reflexivity. }
  rewrite H0, H10, Z.sub_0_r. cbn [Z.to_nat skipn].
  destruct (Nat.le_gt_cases 10 (List.length xs)) as [Hle | Hgt].
  - rewrite Z.min_l by (unfold n; lia). reflexivity.
  - rewrite Z.min_r by (unfold n; lia). unfold n. rewrite Nat2Z.id.
    rewrite firstn_all2 by lia. rewrite firstn_all2 by lia. reflexivity.
Qed.

(** A failure whose message is the empty string, from [fetch] or from
    [response.json()], is falsy for [if (error)]: the load dispatches [OK]
    with the catch branch's [[]], so the view shows an empty list with no
    pages instead of an error. *)
Theorem handleFetch_empty_message (s : LoadState json) :
  handleFetch s (Throw "") = Some (mkState [] false None)
  /\ handleFetch s (Ret (mkResponse true (Throw ""))) = Some (mkState [] false None)
  /\ render (mkState (@nil json) false None) = [DataView]
  /\ pageControls (@nil json) = [].
Proof.
  repeat split.
Qed.

(** Whatever the previous state, [LOADING] renders only the loading
    indicator, [OK] renders only the list, and [ERROR] with a non-empty
    message renders only that message. *)
Theorem render_after_action {A} (s : LoadState A) (xs : list A) (m : string) :
  m <> ""%string ->
  render (reducer s (mkAction "LOADING" xs None)) = [LoadingIndicator]
  /\ render (reducer s (mkAction "OK" xs None)) = [DataView]
  /\ render (reducer s (mkAction "ERROR" xs (Some m))) = [ErrorText m].
Proof.
  intros Hm. apply String.eqb_neq in Hm.
  unfold render, reducer; cbn. rewrite Hm. repeat split.
Qed.

(** Dispatching the same action twice is the same as dispatching it once. *)
Theorem reducer_idempotent {A} (s : LoadState A) (a : Action A) :
  reducer (reducer s a) a = reducer s a.
Proof.
  unfold reducer.
  destruct (String.eqb (atype a) "LOADING") eqn:E1; [reflexivity|].
  destruct (String.eqb (atype a) "OK") eqn:E2; [reflexivity|].
  destruct (String.eqb (atype a) "ERROR") eqn:E3; cbn;
    rewrite ?E1, ?E2, ?E3; reflexivity.
Qed.

Lemma count_true_map {B} (f : B -> bool) (l : list B) :
  List.length (filter (fun b => b) (map f l)) = List.length (filter f l).
Proof.
  induction l as [|x l IH]; cbn; [reflexivity|].
  destruct (f x); cbn; rewrite IH; reflexivity.
Qed.

Lemma count_label_seq (p : Z) (len start : nat) :
  List.length (filter (fun index => Z.of_nat index + 1 =? p) (seq start len)) =
  if (Z.of_nat start + 1 <=? p) && (p <=? Z.of_nat start + Z.of_nat len)
  then 1%nat else 0%nat.
Proof.
  revert start. induction len as [|len IH]; intros start; cbn [seq filter].
  - destruct (Z.leb_spec (Z.of_nat start + 1) p);
      destruct (Z.leb_spec p (Z.of_nat start + Z.of_nat 0)); cbn; try reflexivity; lia.
  - destruct (Z.eqb_spec (Z.of_nat start + 1) p) as [Heq | Hne];
      cbn [List.length]; rewrite IH, !Nat2Z.inj_succ;
      destruct (Z.leb_spec (Z.succ (Z.of_nat start) + 1) p);
      destruct (Z.leb_spec p (Z.succ (Z.of_nat start) + Z.of_nat len));
      destruct (Z.leb_spec (Z.of_nat start + 1) p);
      destruct (Z.leb_spec p (Z.of_nat start + Z.succ (Z.of_nat len)));
      cbn; try reflexivity; lia.
Qed.

(** Exactly one numbered control is marked active when the page index
    is in [[1, totalPages]], and none otherwise. *)
Theorem activeFlags_count {A} (d : list A) (p : Z) :
  List.length (filter (fun b => b) (activeFlags d p)) =
  if (1 <=? p) && (p <=? totalPages d) then 1%nat else 0%nat.
Proof.
  unfold activeFlags, pageControls. rewrite map_map, count_true_map.
  rewrite count_label_seq. cbn [Z.of_nat].
  pose proof (totalPages_nonneg d). rewrite Z2Nat.id by lia.
  reflexivity.
Qed.

Lemma firstn_app_skipn {A} (a b : nat) (l : list A) :
  firstn a l ++ firstn b (skipn a l) = firstn (a + b) l.
Proof.
  revert l. induction a as [|a IH]; intros l; [reflexivity|].
  destruct l as [|x l]; cbn.
  - destruct b; reflexivity.
  - f_equal. apply IH.
Qed.

Lemma firstn_min_length {A} (k : nat) (l : list A) :
  firstn (Nat.min k (List.length l)) l = firstn k l.
Proof.
  destruct (Nat.le_ge_cases k (List.length l)) as [H | H].
  - rewrite Nat.min_l by exact H. reflexivity.
  - rewrite Nat.min_r by exact H. rewrite firstn_all, firstn_all2 by exact H.
    reflexivity.
Qed.

(** Page [k + 1] (for a valid page) is the 10 items from position [10 k]. *)
Lemma currentPageItems_page {A} (d : list A) (k : nat) :
  Z.of_nat k + 1 <= totalPages d ->
  currentPageItems d (Z.of_nat k + 1) = firstn 10 (skipn (k * 10) d).
Proof.
  intros Hk. pose proof (totalPages_bounds d) as Hb.
  rewrite currentPageItems_valid by lia.
  replace (Z.to_nat ((Z.of_nat k + 1 - 1) * 10)) with (k * 10)%nat by lia.
  rewrite <- (firstn_min_length 10 (skipn (k * 10) d)).
  f_equal. rewrite length_skipn. lia.
Qed.

Lemma concat_pages_prefix {A} (d : list A) (k : nat) :
  Z.of_nat k <= totalPages d ->
  List.concat (map (fun index => currentPageItems d (Z.of_nat index + 1)) (seq 0 k))
  = firstn (k * 10) d.
Proof.
  induction k as [|k IH]; intros Hk; [reflexivity|].
  rewrite seq_S, map_app, concat_app, IH by lia. cbn [map List.concat].
  rewrite app_nil_r, currentPageItems_page by lia.
  rewrite firstn_app_skipn. f_equal. lia.
Qed.

(** The pages, read through the numbered controls in order, concatenate
    back to the whole item list: every item is shown on exactly one page,
    in its original order. *)
Theorem pages_concat {A} (d : list A) :
  List.concat (map (currentPageItems d) (pageControls d)) = d.
Proof.
  pose proof (totalPages_bounds d) as Hb. pose proof (totalPages_nonneg d).
  unfold pageControls. rewrite map_map.
  rewrite concat_pages_prefix by lia.
  apply firstn_all2. lia.
Qed.

(** A page index past the last page, or 0, shows an empty slice: this is
    what a stale index left after a reload with fewer items displays. *)
Theorem currentPageItems_out_of_range {A} (d : list A) (p : Z) :
  (p > totalPages d -> currentPageItems d p = [])
  /\ currentPageItems d 0 = [].
Proof.
  pose proof (totalPages_bounds d) as Hb. split.
  - intros Hp. unfold currentPageItems, js_slice, relative_index, itemsPerPage.
    destruct ((p - 1) * 10 <? 0) eqn:E1; [apply Z.ltb_lt in E1; lia|].
    destruct (p * 10 <? 0) eqn:E2; [apply Z.ltb_lt in E2; lia|].
    rewrite !Z.min_r by lia. rewrite Z.sub_diag. reflexivity.
  - unfold currentPageItems, js_slice, relative_index, itemsPerPage. cbn -[Z.max].
    replace (Z.to_nat (Z.min 0 (Z.of_nat (List.length d)) -
                       Z.max (Z.of_nat (List.length d) + -10) 0)) with 0%nat by lia.
    reflexivity.
Qed.

(** Next then Previous, or Previous then Next, returns to the same page
    whenever the first step moves. *)
Theorem previous_next_roundtrip {A} (d : list A) (p : Z) :
  (1 <= p < totalPages d -> handlePrevious (handleNext d p) = p)
  /\ (1 < p <= totalPages d -> handleNext d (handlePrevious p) = p).
Proof.
  split; intros Hp; unfold handlePrevious, handleNext.
  - destruct (Z.ltb_spec p (totalPages d)); [|lia].
    destruct (Z.gtb_spec (p + 1) 1); lia.
  - destruct (Z.gtb_spec p 1); [|lia].
    destruct (Z.ltb_spec (p - 1) (totalPages d)); lia.
Qed.

(** Pressing Next [k] times from a page up to the last one lands on
    [min (p + k) totalPages]; pressing Previous [k] times from a page of
    at least 1 lands on [max (p - k) 1]. *)
Theorem iterate_navigation {A} (d : list A) (p : Z) (k : nat) :
  (p <= totalPages d ->
   Nat.iter k (handleNext d) p = Z.min (p + Z.of_nat k) (totalPages d))
  /\ (1 <= p -> Nat.iter k handlePrevious p = Z.max (p - Z.of_nat k) 1).
Proof.
  split; intros Hp; induction k as [|k IH]; rewrite ?Nat.iter_succ;
    rewrite ?Nat2Z.inj_succ.
  - rewrite Z.add_0_r, Z.min_l by exact Hp. reflexivity.
  - rewrite IH. unfold handleNext.
    destruct (Z.ltb_spec (Z.min (p + Z.of_nat k) (totalPages d)) (totalPages d));
      lia.
  - rewrite Z.sub_0_r, Z.max_l by exact Hp. reflexivity.
  - rewrite IH. unfold handlePrevious.
    destruct (Z.gtb_spec (Z.max (p - Z.of_nat k) 1) 1); lia.
Qed.

(** ** Witnesses for the further properties *)

Lemma handleFetch_thrown_witness :
  handleFetch initialState (Throw "Failed to fetch")
  = Some (mkState [] false (Some "Failed to fetch"%string)).
Proof.
  apply (proj1 (handleFetch_thrown initialState "Failed to fetch" ltac:(discriminate))).
Defined.

Lemma render_after_action_witness :
  render (reducer (mkState [1%nat] true None) (mkAction "ERROR" [] (Some "boom"%string)))
  = [ErrorText "boom"].
Proof.
  apply (proj2 (proj2 (render_after_action (mkState [1%nat] true None) []
                         "boom" ltac:(discriminate)))).
Defined.

Lemma currentPageItems_out_of_range_witness :
  currentPageItems (seq 1 25) 4 = [].
Proof.
  apply (proj1 (currentPageItems_out_of_range (seq 1 25) 4)).
  vm_compute. reflexivity.
Defined.

Lemma previous_next_roundtrip_witness :
  handlePrevious (handleNext (seq 1 25) 2) = 2.
Proof.
  apply (proj1 (previous_next_roundtrip (seq 1 25) 2)).
  vm_compute. split; [discriminate | reflexivity].
Defined.

Lemma iterate_navigation_witness :
  Nat.iter 5 (handleNext (seq 1 25)) 1 = Z.min (1 + Z.of_nat 5) (totalPages (seq 1 25)).
Proof.
  apply (proj1 (iterate_navigation (seq 1 25) 1 5)).
  vm_compute. discriminate.
Defined.
